(** * resize-dmg-bg: the DMG background resizer

    A shallow embedding of [apps/desktop/scripts/resize-dmg-bg.py] and the
    properties of its one straight-line run: what it prints, what it writes,
    and what it leaves alone.

    The script is five statements over two collaborators that are not part
    of the repository: the Python interpreter (formatting, [print], the file
    system) and the Pillow imaging library ([Image.open], [Image.resize],
    [Image.save]).  The interpreter side is modelled concretely.  Of Pillow,
    the Python layer the script calls into is modelled as it behaves (the
    lazy open, the short cuts of [resize], the order in which [save] opens
    the file and encodes, the resolution arithmetic of the PNG plugin); the
    decoder, the resampler and the encoder underneath are an interface
    ([Pillow]), and what is expected of them is a separate class
    ([PillowLaws]), so that every statement shows whether it relies on it. *)

From stdpp Require Import gmap strings list pretty.
From Stdlib Require Import ZArith Strings.Ascii Strings.Byte Floats.

#[local] Set Warnings "-register-all".
#[local] Set Warnings "-inexact-float".

Open Scope Z_scope.
Open Scope string_scope.

(** ** Python values *)

(** The values the script formats: [img.size] is a tuple of two ints,
    [img.info.get('dpi')] is [None] or whatever the decoder stored (for PNG a
    tuple of two floats). *)
Inductive PyVal :=
| PyNone
| PyInt (z : Z)
| PyFloat (f : float)
| PyTuple (items : list PyVal).

(** [repr] of a binary64 float (the shortest decimal that reads back) is the
    interpreter's; it is taken as given. *)
Class FloatRepr := float_repr : float -> string.

(** [str(v)], which is what an f-string field [{v}] inserts.  For these
    values [str] and [repr] agree; a tuple shows its items by [repr], and a
    one-item tuple keeps its comma. *)
Fixpoint py_str `{FloatRepr} (v : PyVal) : string :=
  match v with
  | PyNone => "None"
  | PyInt z => pretty z
  | PyFloat f => float_repr f
  | PyTuple items =>
      match items with
      | [x] => "(" +:+ py_str x +:+ ",)"
      | _ => "(" +:+ String.concat ", " (List.map py_str items) +:+ ")"
      end
  end.

(** [d.get(k)]: the value under [k], [None] when the key is absent (never a
    [KeyError]). *)
Definition dict_get (d : gmap string PyVal) (k : string) : PyVal :=
  default PyNone (d !! k).

(** [float(z)] for an int in the range of a machine word. *)
Definition float_of_int (z : Z) : float := PrimFloat.of_uint63 (Uint63.of_Z z).

(** [int(f)]: towards zero. *)
Definition int_of_float (f : float) : Z :=
  match Prim2SF f with
  | S754_finite negative m e =>
      let magnitude :=
        if (0 <=? e)%Z then (Z.pos m * 2 ^ e)%Z else (Z.pos m / 2 ^ (- e))%Z in
      if negative then (- magnitude)%Z else magnitude
  | _ => 0
  end.

(** ** Resolution in a PNG file

    A PNG file has no field for dots per inch: its [pHYs] chunk holds whole
    pixels per metre.  Pillow's PNG plugin converts on the way in and on the
    way out, in binary64 arithmetic: it writes [int(dpi / 0.0254 + 0.5)] and
    reads back [px * 0.0254]. *)
Definition pixels_per_metre (dpi : Z) : Z :=
  int_of_float (PrimFloat.add (PrimFloat.div (float_of_int dpi) 0.0254%float) 0.5%float).

Definition dpi_of_pixels_per_metre (ppm : Z) : float :=
  PrimFloat.mul (float_of_int ppm) 0.0254%float.

(** ** The imaging library *)

(** [Image.Resampling]. *)
Inductive Resampling := NEAREST | BOX | BILINEAR | HAMMING | BICUBIC | LANCZOS.

(** The source region of a resize, [(left, upper, right, lower)]. *)
Definition Region : Type := Z * Z * Z * Z.

(** The codecs and the resampler under Pillow's Python layer.

    - [identify] is the header parse of [Image.open]: the image object it
      returns carries [mode], [size] and [info], the pixel data is not
      decoded yet; [None] when no decoder accepts the content.
    - [loads] tells whether [load()] can decode the pixel data of an image
      object.
    - [im_resize] is the resampler, [self.im.resize(size, resample, box)],
      on loaded data.
    - [im_encode] is what the encoder chosen by the extension of the path
      writes for the image and the keyword arguments of [save]; [None] when
      it refuses the image (the PNG encoder does for a mode it cannot
      write, such as CMYK). *)
Class Pillow := {
  Image : Type;
  im_mode : Image -> string;
  im_size : Image -> Z * Z;
  im_info : Image -> gmap string PyVal;
  identify : list byte -> option Image;
  loads : Image -> bool;
  im_resize : Image -> Z * Z -> Resampling -> Region -> Image;
  im_encode : string -> Image -> gmap string PyVal -> option (list byte)
}.

(** ** The process: file system, standard output, exceptions *)

(** How the operating system fails a write, when it does. *)
Inductive WriteFault :=
| Refused                       (* cannot open for writing: nothing is touched *)
| Aborted (residue : list byte).   (* stopped part-way: the file then holds [residue] *)

Record Env := {
  files : gmap string (list byte);   (* path -> content *)
  write_fault : option WriteFault    (* permissions, disk space, ... *)
}.

(** The effects of a run, in the order they happen. *)
Inductive Event :=
| EvPrint (line : string)
| EvWrite (path : string) (content : list byte).

Inductive Exn :=
| FileNotFoundError (path : string)
| UnidentifiedImageError (path : string)
| PermissionError (path : string)
| OSError (msg : string).

Inductive Result (A : Type) :=
| Ret (a : A)
| Raise (e : Exn).
Arguments Ret {A} a.
Arguments Raise {A} e.

Record Outcome (A : Type) := {
  env_after : Env;
  emitted : list Event;
  result : Result A
}.
Arguments env_after {A} _.
Arguments emitted {A} _.
Arguments result {A} _.

(** A piece of script: from the environment it starts in to its outcome.
    An exception is not caught anywhere, so it ends the run; what had been
    printed and written before it stays. *)
Definition Script (A : Type) : Type := Env -> Outcome A.

#[global] Instance script_ret : MRet Script := fun A a env =>
  {| env_after := env; emitted := []; result := Ret a |}.

#[global] Instance script_bind : MBind Script := fun A B k m env =>
  let o := m env in
  match result o with
  | Ret a =>
      let o' := k a (env_after o) in
      {| env_after := env_after o';
         emitted := emitted o ++ emitted o';
         result := result o' |}
  | Raise e =>
      {| env_after := env_after o; emitted := emitted o; result := Raise e |}
  end.

Definition raise {A} (e : Exn) : Script A := fun env =>
  {| env_after := env; emitted := []; result := Raise e |}.

(** [print(line)] *)
Definition print (line : string) : Script unit := fun env =>
  {| env_after := env; emitted := [EvPrint line]; result := Ret tt |}.

(** The lines a run wrote to standard output. *)
Definition stdout (evs : list Event) : list string :=
  omap (fun ev => match ev with EvPrint l => Some l | EvWrite _ _ => None end) evs.

(** The files a run wrote, with what it left in them. *)
Definition writes (evs : list Event) : list (string * list byte) :=
  omap (fun ev => match ev with EvWrite p c => Some (p, c) | EvPrint _ => None end) evs.

(** A write that fails after the file was opened with ["w+b"]: a file that
    was there holds what had been written when it failed; a file the open
    had just created is removed again. *)
Definition failed_write {A} (path : string) (residue : list byte) (e : Exn)
    : Script A := fun env =>
  match files env !! path with
  | Some _ =>
      {| env_after := {| files := <[path := residue]> (files env);
                         write_fault := write_fault env |};
         emitted := [EvWrite path residue];
         result := Raise e |}
  | None => raise e env
  end.

Section Script.
Context `{FloatRepr} `{Pillow}.

(** [Image.open(path)] *)
Definition Image_open (path : string) : Script Image := fun env =>
  match files env !! path with
  | None => raise (FileNotFoundError path) env
  | Some content =>
      match identify content with
      | None => raise (UnidentifiedImageError path) env
      | Some img => (mret img : Script Image) env
      end
  end.

(** The default [box] of a resize, [(0, 0) + self.size]. *)
Definition full_frame (img : Image) : Region :=
  (0, 0, (im_size img).1, (im_size img).2).

(** The modes for which [resize] replaces the filter asked for with
    [NEAREST]: [self.mode in ("1", "P")]. *)
Definition nearest_only (mode : string) : bool :=
  String.eqb mode "1" || String.eqb mode "P".

(** [img.resize(size, resample)] once the pixel data is loaded, [box] left
    at its default: an image that already has the size is copied, not
    resampled; a bilevel or palette image is resampled with [NEAREST]
    whatever filter was asked for.  (For the modes with an alpha band the
    resampler works on premultiplied data; that is inside [im_resize].) *)
Definition resize_loaded (img : Image) (size : Z * Z) (resample : Resampling)
    : Image :=
  if decide (im_size img = size) then img
  else
    im_resize img size
      (if nearest_only (im_mode img) then NEAREST else resample)
      (full_frame img).

(** [img.resize(size, resample)] *)
Definition resize (img : Image) (size : Z * Z) (resample : Resampling)
    : Script Image :=
  if loads img then mret (resize_loaded img size resample)
  else raise (OSError "image file is truncated").

(** [img.save(path, **params)], for a path whose extension names a format
    Pillow writes: the pixel data is loaded, the file is opened with
    ["w+b"], which empties it, and only then the encoder runs. *)
Definition save (img : Image) (path : string) (params : gmap string PyVal)
    : Script unit := fun env =>
  if loads img then
    match write_fault env with
    | Some Refused => raise (PermissionError path) env
    | fault =>
        match im_encode path img params with
        | None => failed_write path [] (OSError "cannot write mode") env
        | Some content =>
            match fault with
            | Some (Aborted residue) =>
                failed_write path residue (OSError "write failed") env
            | _ =>
                {| env_after := {| files := <[path := content]> (files env);
                                   write_fault := write_fault env |};
                   emitted := [EvWrite path content];
                   result := Ret tt |}
            end
        end
    end
  else raise (OSError "image file is truncated") env.

(** *** The script *)

Definition src : string := "apps/desktop/build/dmg-background.png".

Definition size_tuple (img : Image) : PyVal :=
  PyTuple [PyInt (im_size img).1; PyInt (im_size img).2].

(** [f"Before: {img.size}, DPI: {img.info.get('dpi')}"] *)
Definition before_line (img : Image) : string :=
  "Before: " +:+ py_str (size_tuple img) +:+ ", DPI: "
    +:+ py_str (dict_get (im_info img) "dpi").

Definition after_line : string := "After:  (590, 380), DPI: (72, 72)".

(** The keyword arguments of the save: [dpi=(72, 72)]. *)
Definition save_params : gmap string PyVal :=
  {[ "dpi" := PyTuple [PyInt 72; PyInt 72] ]}.

Definition main : Script unit :=
  img ← Image_open src;
  print (before_line img);;
  img ← resize img (590, 380) LANCZOS;
  save img src save_params;;
  print after_line.

(** The image the script saves, from the image it opened. *)
Definition resized (img : Image) : Image :=
  resize_loaded img (590, 380) LANCZOS.

End Script.

(** ** What is on disk *)

Section Disk.
Context `{Pillow}.

(** The image a reader finds at [path]: the header of the file there. *)
Definition file_image (env : Env) (path : string) : option Image :=
  content ← files env !! path; identify content.

(** The target can be opened and its pixel data decoded. *)
Definition decodable (env : Env) : Prop :=
  exists content img,
    files env !! src = Some content /\ identify content = Some img /\
    loads img = true.

(** Its pixel dimensions, as a reader of the file sees them. *)
Definition file_size (env : Env) (path : string) : option (Z * Z) :=
  im_size <$> file_image env path.

(** Its resolution tag, as a reader of the file sees it. *)
Definition file_dpi (env : Env) (path : string) : option PyVal :=
  img ← file_image env path; im_info img !! "dpi".

Definition valid_size (size : Z * Z) : Prop := 0 < size.1 /\ 0 < size.2.
End Disk.

(** ** What is expected of the codecs and the resampler

    Nothing about pixel values:

    - resampling to a positive size returns an image of exactly that size,
      with its pixel data in memory;
    - a file the encoder wrote opens again, with the size of the image
      saved and pixel data that loads, as an image the encoder takes again;
    - a resolution given to [save] as [dpi=(x, y)] goes through the
      pixels-per-metre arithmetic of the PNG plugin: a reader of the file is
      told the floats [px * 0.0254], not the numbers that were given. *)
Class PillowLaws `{Pillow} : Prop := {
  resize_size img size resample box :
    valid_size size -> im_size (im_resize img size resample box) = size;
  resize_loads img size resample box :
    loads img = true -> loads (im_resize img size resample box) = true;
  reopen_size path img params written :
    im_encode path img params = Some written ->
    exists img', identify written = Some img' /\
                 im_size img' = im_size img /\ loads img' = true /\
                 is_Some (im_encode path img' params);
  reopen_dpi path img params written img' x y :
    im_encode path img params = Some written ->
    identify written = Some img' ->
    params !! "dpi" = Some (PyTuple [PyInt x; PyInt y]) ->
    0 <= x < 2 ^ 26 -> 0 <= y < 2 ^ 26 ->
    im_info img' !! "dpi" =
      Some (PyTuple [PyFloat (dpi_of_pixels_per_metre (pixels_per_metre x));
                     PyFloat (dpi_of_pixels_per_metre (pixels_per_metre y))])
}.

(** ** A small codec

    A concrete [Pillow] that satisfies [PillowLaws], to run the script on.
    A file is a magic byte, a mode byte, the width and the height in unary,
    an optional resolution, one byte that stands for all the pixel data, and
    a last byte telling whether the pixel data is complete.  The resampler
    leaves the code of the filter it was given as the pixel byte, so that
    what was resampled, and how, shows in the file. *)
Module Toy.

Record image := {
  t_mode : byte;
  t_w : nat; t_h : nat;
  t_dpi : option (nat * nat);
  t_pixels : byte;
  t_complete : bool
}.

(** Mode bytes. *)
Definition rgb : byte := x00.
Definition bilevel : byte := x01.
Definition palette : byte := x02.
Definition cmyk : byte := x03.

Definition mode_name (m : byte) : string :=
  if Byte.eqb m bilevel then "1"
  else if Byte.eqb m palette then "P"
  else if Byte.eqb m cmyk then "CMYK"
  else "RGB".

Definition filter_code (resample : Resampling) : byte :=
  match resample with
  | NEAREST => x00 | LANCZOS => x01 | BILINEAR => x02
  | BICUBIC => x03 | BOX => x04 | HAMMING => x05
  end.

Definition unary (n : nat) : list byte := replicate n x01 ++ [x00].

Fixpoint read_unary (bs : list byte) : option (nat * list byte) :=
  match bs with
  | [] => None
  | b :: rest =>
      if Byte.eqb b x00 then Some (O, rest)
      else '(n, rest') ← read_unary rest; Some (S n, rest')
  end.

Definition read_dpi (bs : list byte) : option (option (nat * nat) * list byte) :=
  match bs with
  | [] => None
  | b :: rest =>
      if Byte.eqb b x00 then Some (None, rest)
      else
        '(x, rest1) ← read_unary rest;
        '(y, rest2) ← read_unary rest1;
        Some (Some (x, y), rest2)
  end.

Definition parse (bs : list byte) : option image :=
  match bs with
  | b :: m :: rest =>
      if Byte.eqb b x54 then
        '(w, rest1) ← read_unary rest;
        '(h, rest2) ← read_unary rest1;
        '(dpi, rest3) ← read_dpi rest2;
        Some {| t_mode := m; t_w := w; t_h := h; t_dpi := dpi;
                t_pixels := match rest3 with
                            | px :: _ => px
                            | [] => x00
                            end;
                t_complete := match rest3 with
                              | [_; b'] => Byte.eqb b' x01
                              | _ => false
                              end |}
      else None
  | _ => None
  end.

(** The resolution a reader is told: the one in the file after the
    pixels-per-metre arithmetic. *)
Definition info (img : image) : gmap string PyVal :=
  match t_dpi img with
  | Some (x, y) =>
      {[ "dpi" :=
           PyTuple [PyFloat (dpi_of_pixels_per_metre (pixels_per_metre (Z.of_nat x)));
                    PyFloat (dpi_of_pixels_per_metre (pixels_per_metre (Z.of_nat y)))] ]}
  | None => ∅
  end.

Definition scale (img : image) (size : Z * Z) (resample : Resampling)
    (_ : Region) : image :=
  {| t_mode := t_mode img;
     t_w := Z.to_nat size.1; t_h := Z.to_nat size.2;
     t_dpi := t_dpi img; t_pixels := filter_code resample;
     t_complete := true |}.

(** A file holding a [w] x [h] image of mode [m] with resolution [dpi] and
    pixel byte [px]. *)
Definition file (m px : byte) (w h : nat) (dpi : option (nat * nat)) : list byte :=
  x54 :: m :: unary w ++ unary h
    ++ match dpi with
       | Some (x, y) => x01 :: unary x ++ unary y
       | None => [x00]
       end ++ [px; x01].

(** An RGB file as it comes from an editor. *)
Definition png (w h : nat) (dpi : option (nat * nat)) : list byte :=
  file rgb x2a w h dpi.

Definition dpi_param (params : gmap string PyVal) : option (nat * nat) :=
  match params !! "dpi" with
  | Some (PyTuple [PyInt x; PyInt y]) => Some (Z.to_nat x, Z.to_nat y)
  | _ => None
  end.

(** The encoder refuses CMYK, as the PNG encoder does. *)
Definition write (_ : string) (img : image) (params : gmap string PyVal)
    : option (list byte) :=
  if String.eqb (mode_name (t_mode img)) "CMYK" then None
  else Some (file (t_mode img) (t_pixels img) (t_w img) (t_h img) (dpi_param params)).

Definition pillow : Pillow := {|
  Image := image;
  im_mode img := mode_name (t_mode img);
  im_size img := (Z.of_nat (t_w img), Z.of_nat (t_h img));
  im_info := info;
  identify := parse;
  loads := t_complete;
  im_resize := scale;
  im_encode := write
|}.

(** A stand-in for the interpreter's [repr], right on the floats the runs
    below print: 2835 and 3780 pixels per metre read back. *)
Definition repr : FloatRepr := fun f =>
  if PrimFloat.eqb f 72.009%float then "72.009"
  else if PrimFloat.eqb f 96.012%float then "96.012"
  else "nan".

Definition disk (content : list byte) (fault : option WriteFault) : Env :=
  {| files := {[ src := content; "README.md" := [x23; x0a] ]};
     write_fault := fault |}.

Definition run : Script unit := @main repr pillow.

(** The images in the files below, as [parse] returns them. *)
Definition decoded (m : byte) (w h : nat) (dpi : option (nat * nat)) : image :=
  {| t_mode := m; t_w := w; t_h := h; t_dpi := dpi;
     t_pixels := x2a; t_complete := true |}.

(** Inputs: a wide export at 96 dpi, a square image without a resolution
    tag, a file that is already what the script makes, a palette image, a
    CMYK image under the same name, a read-only disk, a disk that fills up,
    a file cut short after its header, a file that is no image, and no file
    at all. *)
Definition wide : Env := disk (png 1200 760 (Some (96%nat, 96%nat))) None.
Definition square : Env := disk (png 512 512 None) None.
Definition done_already : Env := disk (png 590 380 (Some (72%nat, 72%nat))) None.
Definition indexed : Env := disk (file palette x2a 1200 760 None) None.
Definition four_inks : Env := disk (file cmyk x2a 1200 760 None) None.
Definition read_only : Env := disk (png 1200 760 None) (Some Refused).
Definition disk_full : Env := disk (png 1200 760 None) (Some (Aborted [x54])).
Definition cut_short : Env := disk [x54; x00; x01; x01; x00; x01; x00; x00] None.
Definition not_an_image : Env := disk [x23; x21] None.
Definition no_file : Env :=
  {| files := {[ "README.md" := [x23; x0a] ]}; write_fault := None |}.

(** The same codec with an encoder that writes an empty file, which no
    reader accepts. *)
Definition careless : Pillow := {|
  Image := image;
  im_mode img := mode_name (t_mode img);
  im_size img := (Z.of_nat (t_w img), Z.of_nat (t_h img));
  im_info := info;
  identify := parse;
  loads := t_complete;
  im_resize := scale;
  im_encode _ _ _ := Some []
|}.

End Toy.

(** ** Characters of a line *)

(** Whether the character [c] occurs in [s]. *)
Fixpoint occurs (c : Ascii.ascii) (s : string) : bool :=
  match s with
  | EmptyString => false
  | String a rest => Ascii.eqb a c || occurs c rest
  end.

(** The characters a printed int is made of. *)
Definition numeric (c : Ascii.ascii) : bool := occurs c "-0123456789".

(** * Properties *)

(** ** The ways a run can go *)

Ltac step_script :=
  unfold main, Image_open, resize, save, failed_write, print, raise;
  unfold mbind, mret, script_bind, script_ret; simpl.

Lemma append_assoc (s1 s2 s3 : string) :
  (s1 +:+ s2) +:+ s3 = s1 +:+ s2 +:+ s3.
Proof.
  induction s1 as [|a s1 IH]; [reflexivity|].
  change (String a ((s1 +:+ s2) +:+ s3) = String a (s1 +:+ s2 +:+ s3)).
  rewrite IH. reflexivity.
Qed.

Section Run.
Context `{FloatRepr} `{Pillow}.

Lemma main_missing env :
  files env !! src = None ->
  main env = {| env_after := env; emitted := [];
                result := Raise (FileNotFoundError src) |}.
Proof. intros Hf. step_script. rewrite Hf. reflexivity. Qed.

Lemma main_unidentified env content :
  files env !! src = Some content -> identify content = None ->
  main env = {| env_after := env; emitted := [];
                result := Raise (UnidentifiedImageError src) |}.
Proof. intros Hf Hi. step_script. rewrite Hf, Hi. reflexivity. Qed.

Lemma main_truncated env content img :
  files env !! src = Some content -> identify content = Some img ->
  loads img = false ->
  main env = {| env_after := env; emitted := [EvPrint (before_line img)];
                result := Raise (OSError "image file is truncated") |}.
Proof.
  intros Hf Hi Hl. step_script. rewrite Hf, Hi. simpl. rewrite Hl.
  reflexivity.
Qed.

Lemma main_unsaved env content img :
  files env !! src = Some content -> identify content = Some img ->
  loads img = true -> loads (resized img) = false ->
  main env = {| env_after := env; emitted := [EvPrint (before_line img)];
                result := Raise (OSError "image file is truncated") |}.
Proof.
  intros Hf Hi Hl Hr. unfold resized in Hr. step_script.
  rewrite Hf, Hi. simpl. rewrite Hl. simpl. rewrite Hr. reflexivity.
Qed.

Lemma main_refused env content img :
  files env !! src = Some content -> identify content = Some img ->
  loads img = true -> loads (resized img) = true ->
  write_fault env = Some Refused ->
  main env = {| env_after := env; emitted := [EvPrint (before_line img)];
                result := Raise (PermissionError src) |}.
Proof.
  intros Hf Hi Hl Hr Hw. unfold resized in Hr. step_script.
  rewrite Hf, Hi. simpl. rewrite Hl. simpl. rewrite Hr, Hw. reflexivity.
Qed.

Lemma main_unencodable env content img :
  files env !! src = Some content -> identify content = Some img ->
  loads img = true -> loads (resized img) = true ->
  write_fault env <> Some Refused ->
  im_encode src (resized img) save_params = None ->
  main env =
    {| env_after := {| files := <[src := []]> (files env);
                       write_fault := write_fault env |};
       emitted := [EvPrint (before_line img); EvWrite src []];
       result := Raise (OSError "cannot write mode") |}.
Proof.
  intros Hf Hi Hl Hr Hw He. unfold resized in Hr, He. step_script.
  rewrite Hf, Hi. simpl. rewrite Hl. simpl. rewrite Hr.
  destruct (write_fault env) as [[|residue]|]; [done| |];
    rewrite He, Hf; reflexivity.
Qed.

Lemma main_aborted env content img written residue :
  files env !! src = Some content -> identify content = Some img ->
  loads img = true -> loads (resized img) = true ->
  im_encode src (resized img) save_params = Some written ->
  write_fault env = Some (Aborted residue) ->
  main env =
    {| env_after := {| files := <[src := residue]> (files env);
                       write_fault := write_fault env |};
       emitted := [EvPrint (before_line img); EvWrite src residue];
       result := Raise (OSError "write failed") |}.
Proof.
  intros Hf Hi Hl Hr He Hw. unfold resized in Hr, He. step_script.
  rewrite Hf, Hi. simpl. rewrite Hl. simpl. rewrite Hr, Hw, He, Hf.
  reflexivity.
Qed.

Lemma main_saved env content img written :
  files env !! src = Some content -> identify content = Some img ->
  loads img = true -> loads (resized img) = true ->
  im_encode src (resized img) save_params = Some written ->
  write_fault env = None ->
  main env =
    {| env_after := {| files := <[src := written]> (files env);
                       write_fault := write_fault env |};
       emitted := [EvPrint (before_line img); EvWrite src written;
                   EvPrint after_line];
       result := Ret tt |}.
Proof.
  intros Hf Hi Hl Hr He Hw. unfold resized in Hr, He. step_script.
  rewrite Hf, Hi. simpl. rewrite Hl. simpl. rewrite Hr, Hw, He.
  reflexivity.
Qed.

End Run.

(** Splits a goal about [main env] into the eight ways the run can go, with
    [main env] replaced by its outcome in each. *)
Ltac run_cases env :=
  destruct (files env !! src) as [content|] eqn:Hf;
    [destruct (identify content) as [img|] eqn:Hi;
       [destruct (loads img) eqn:Hl;
          [destruct (loads (resized img)) eqn:Hr;
             [destruct (write_fault env) as [[|residue]|] eqn:Hw;
                [rewrite (main_refused _ _ _ Hf Hi Hl Hr Hw)
                |destruct (im_encode src (resized img) save_params)
                   as [written|] eqn:He;
                   [rewrite (main_aborted _ _ _ _ _ Hf Hi Hl Hr He Hw)
                   |rewrite (main_unencodable _ _ _ Hf Hi Hl Hr
                               ltac:(rewrite Hw; discriminate) He)]
                |destruct (im_encode src (resized img) save_params)
                   as [written|] eqn:He;
                   [rewrite (main_saved _ _ _ _ Hf Hi Hl Hr He Hw)
                   |rewrite (main_unencodable _ _ _ Hf Hi Hl Hr
                               ltac:(rewrite Hw; discriminate) He)]]
             |rewrite (main_unsaved _ _ _ Hf Hi Hl Hr)]
          |rewrite (main_truncated _ _ _ Hf Hi Hl)]
       |rewrite (main_unidentified _ _ Hf Hi)]
    |rewrite (main_missing _ Hf)].

Section RunFacts.
Context `{FloatRepr} `{Pillow}.

(** A run that returns went through the last case. *)
Lemma main_ret_inv env :
  result (main env) = Ret tt ->
  exists content img written,
    files env !! src = Some content /\ identify content = Some img /\
    loads img = true /\ loads (resized img) = true /\
    im_encode src (resized img) save_params = Some written /\
    write_fault env = None.
Proof.
  run_cases env; cbn [result]; intros Hret; try discriminate.
  exists content, img, written. done.
Qed.

(** The two lines cannot be confused. *)
Lemma before_is_not_after img : before_line img <> after_line.
Proof. unfold before_line, after_line. cbn [String.append]. discriminate. Qed.

(** The first line, spelled out. *)
Lemma before_line_format img :
  before_line img =
    "Before: (" +:+ pretty (im_size img).1 +:+ ", " +:+ pretty (im_size img).2
      +:+ "), DPI: "
      +:+ match im_info img !! "dpi" with
          | Some dpi => py_str dpi
          | None => "None"
          end.
Proof.
  unfold before_line, size_tuple, dict_get.
  cbn [py_str List.map String.concat].
  destruct (im_info img !! "dpi"); cbn [default];
    rewrite !append_assoc; reflexivity.
Qed.

(** The image saved is the image opened when that already has the size. *)
Lemma resized_same_size img : im_size img = (590, 380) -> resized img = img.
Proof. intros Hsz. unfold resized, resize_loaded. rewrite decide_True; done. Qed.

Lemma resized_other_size img :
  im_size img <> (590, 380) ->
  resized img =
    im_resize img (590, 380)
      (if nearest_only (im_mode img) then NEAREST else LANCZOS)
      (0, 0, (im_size img).1, (im_size img).2).
Proof. intros Hsz. unfold resized, resize_loaded. rewrite decide_False; done. Qed.

End RunFacts.

(** ** The small codec keeps what is expected *)

Section ToyLaws.
Import Toy.

Lemma read_unary_unary n rest :
  read_unary (unary n ++ rest) = Some (n, rest).
Proof.
  unfold unary. induction n as [|n IH]; [reflexivity|].
  cbn [replicate app read_unary Byte.eqb]. cbn in IH |- *. rewrite IH.
  reflexivity.
Qed.

Lemma parse_file m px w h dpi :
  parse (file m px w h dpi) =
    Some {| t_mode := m; t_w := w; t_h := h; t_dpi := dpi;
            t_pixels := px; t_complete := true |}.
Proof.
  unfold file, parse. change (Byte.eqb x54 x54) with true. cbv iota.
  rewrite read_unary_unary. cbn [mbind option_bind].
  rewrite read_unary_unary. cbn [mbind option_bind].
  destruct dpi as [[x y]|]; [|reflexivity].
  cbn [app read_dpi]. change (Byte.eqb x01 x00) with false. cbv iota.
  rewrite <- app_assoc, read_unary_unary. cbn [mbind option_bind].
  rewrite read_unary_unary. reflexivity.
Qed.

Lemma toy_laws : @PillowLaws pillow.
Proof.
  split.
  - intros img [w h] resample box [Hw Hh]. cbn in *.
    rewrite !Z2Nat.id by lia. reflexivity.
  - reflexivity.
  - intros path img params written Hwritten. cbn -[parse file] in *.
    unfold write in *.
    destruct (String.eqb (mode_name (t_mode img)) "CMYK") eqn:Hmode;
      [discriminate|].
    injection Hwritten as <-. rewrite parse_file.
    eexists. split; [reflexivity|]. cbn [t_w t_h t_complete t_mode].
    rewrite Hmode. repeat split. eauto.
  - intros path img params written img' x y Hwritten Hopen Hdpi Hx Hy.
    cbn -[parse file] in *. unfold write, dpi_param in Hwritten.
    destruct (String.eqb (mode_name (t_mode img)) "CMYK"); [discriminate|].
    injection Hwritten as <-. rewrite Hdpi, parse_file in Hopen.
    injection Hopen as <-. unfold info. cbn [t_dpi].
    rewrite !Z2Nat.id by lia. apply lookup_singleton_eq.
Qed.

End ToyLaws.

(** ** The file after a run *)

Section Target.
Context `{FloatRepr} `{Pillow} `{!PillowLaws}.

Lemma target_size_valid : valid_size (590, 380).
Proof. split; cbn; lia. Qed.

(** The image the script saves has the target size. *)
Lemma resized_size img : im_size (resized img) = (590, 380).
Proof.
  unfold resized, resize_loaded. case_decide; [done|].
  apply resize_size, target_size_valid.
Qed.

Lemma resized_loads img : loads img = true -> loads (resized img) = true.
Proof.
  intros Hl. unfold resized, resize_loaded. case_decide; [done|].
  apply resize_loads, Hl.
Qed.

(** 72 dots per inch is stored as 2835 pixels per metre. *)
Lemma pixels_per_metre_72 : pixels_per_metre 72 = 2835.
Proof. vm_compute. reflexivity. Qed.

(** What a reader finds at the fixed path once the run has returned. *)
Lemma target_after_run env :
  result (main env) = Ret tt ->
  exists img',
    file_image (env_after (main env)) src = Some img' /\
    im_size img' = (590, 380) /\ loads img' = true /\
    is_Some (im_encode src img' save_params) /\
    im_info img' !! "dpi" =
      Some (PyTuple [PyFloat (dpi_of_pixels_per_metre 2835);
                     PyFloat (dpi_of_pixels_per_metre 2835)]).
Proof.
  intros Hret.
  destruct (main_ret_inv env Hret)
    as (content & img & written & Hf & Hi & Hl & Hr & He & Hw).
  unfold file_image. rewrite (main_saved _ _ _ _ Hf Hi Hl Hr He Hw).
  cbn [env_after files]. rewrite lookup_insert_eq. cbn [mbind option_bind].
  destruct (reopen_size src (resized img) save_params written He)
    as (img' & Hopen & Hsz & Hld & Hagain).
  exists img'. split; [done|]. split; [rewrite Hsz; apply resized_size|].
  split; [done|]. split; [done|].
  rewrite <- pixels_per_metre_72.
  apply (reopen_dpi src (resized img) save_params written img' 72 72 He Hopen);
    [apply lookup_singleton_eq | split; [lia | reflexivity] ..].
Qed.

Lemma size_after_run env :
  result (main env) = Ret tt ->
  file_size (env_after (main env)) src = Some (590, 380).
Proof.
  intros Hret.
  destruct (target_after_run env Hret) as (img' & Himg & Hsz & _).
  unfold file_size. rewrite Himg. cbn. rewrite Hsz. done.
Qed.

(** C1. After a successful run, whatever the size and the resolution tag of
    the input were, the file at the fixed path is an image of exactly
    590 x 380 pixels; its resolution is 2835 pixels per metre each way,
    which a reader is told as the float 2835 * 0.0254 (72.009 dots per
    inch), not as (72, 72).  As long as the library keeps [PillowLaws]. *)
Theorem run_leaves_target_size_and_resolution env :
  result (main env) = Ret tt ->
  file_size (env_after (main env)) src = Some (590, 380) /\
  file_dpi (env_after (main env)) src =
    Some (PyTuple [PyFloat (dpi_of_pixels_per_metre 2835);
                   PyFloat (dpi_of_pixels_per_metre 2835)]) /\
  dpi_of_pixels_per_metre 2835 = 72.009%float.
Proof.
  intros Hret. split; [apply size_after_run; done|].
  destruct (target_after_run env Hret) as (img' & Himg & _ & _ & _ & Hdpi).
  unfold file_dpi. rewrite Himg. done.
Qed.

(** C2. One successful run leaves a 590 x 380 file, and a second run started
    on that file (on a disk that takes the write) returns too and leaves a
    590 x 380 file again; of [PillowLaws] only the parts about sizes are
    used. *)
Theorem rerun_keeps_target_size env env1 :
  result (main env) = Ret tt ->
  files env1 !! src = files (env_after (main env)) !! src ->
  write_fault env1 = None ->
  file_size (env_after (main env)) src = Some (590, 380) /\
  result (main env1) = Ret tt /\
  file_size (env_after (main env1)) src = Some (590, 380).
Proof.
  intros Hret Hsame Hw.
  destruct (target_after_run env Hret)
    as (img' & Himg & Hsz & Hld & [again Hagain] & _).
  assert (Hret1 : result (main env1) = Ret tt).
  { unfold file_image in Himg. rewrite <- Hsame in Himg.
    destruct (files env1 !! src) as [content|] eqn:Hf; [|discriminate].
    cbn in Himg.
    assert (Hcopy : resized img' = img') by (apply resized_same_size; done).
    rewrite (main_saved env1 content img' again); rewrite ?Hcopy; done. }
  split; [apply size_after_run; done|]. split; [done|].
  apply size_after_run; done.
Qed.

End Target.

(** ** The resize and the save *)

Section Resize.
Context `{FloatRepr} `{Pillow} `{!PillowLaws}.


(** C7. The script tests nothing about the input before the resize and the
    save: for every decodable input whose resized buffer the encoder takes,
    on a disk that takes the write, the run returns and the file at the
    fixed path is the encoding of what [resize] returned, an input that is
    already 590 x 380 included.  For such an input what [resize] returns is
    the decoded buffer itself, so the file is encoded and written again but
    nothing is resampled. *)
Theorem save_follows_resize_unconditionally env content img written :
  files env !! src = Some content -> identify content = Some img ->
  loads img = true ->
  im_encode src (resized img) save_params = Some written ->
  write_fault env = None ->
  result (main env) = Ret tt /\
  writes (emitted (main env)) = [(src, written)] /\
  files (env_after (main env)) !! src = Some written /\
  (im_size img = (590, 380) -> resized img = img) /\
  (im_size img <> (590, 380) ->
   resized img =
     im_resize img (590, 380)
       (if nearest_only (im_mode img) then NEAREST else LANCZOS)
       (full_frame img)).
Proof.
  intros Hf Hi Hl He Hw.
  rewrite (main_saved _ _ _ _ Hf Hi Hl (resized_loads _ Hl) He Hw).
  cbn [result emitted env_after files]. repeat split.
  - apply lookup_insert_eq.
  - apply resized_same_size.
  - apply resized_other_size.
Qed.

End Resize.

(** ** What a run prints and touches *)

Section Effects.
Context `{FloatRepr} `{Pillow}.

(** Once the file has been opened the first thing the run does is print the
    first line. *)
Lemma main_opened env content img :
  files env !! src = Some content -> identify content = Some img ->
  (exists written,
     result (main env) = Ret tt /\
     emitted (main env) =
       [EvPrint (before_line img); EvWrite src written; EvPrint after_line] /\
     env_after (main env) =
       {| files := <[src := written]> (files env);
          write_fault := write_fault env |} /\
     write_fault env = None)
  \/
  (exists e, result (main env) = Raise e /\
   stdout (emitted (main env)) = [before_line img]).
Proof.
  intros Hf Hi.
  destruct (loads img) eqn:Hl;
    [| right; rewrite (main_truncated _ _ _ Hf Hi Hl); eauto].
  destruct (loads (resized img)) eqn:Hr;
    [| right; rewrite (main_unsaved _ _ _ Hf Hi Hl Hr); eauto].
  destruct (im_encode src (resized img) save_params) as [written|] eqn:He;
    destruct (write_fault env) as [[|residue]|] eqn:Hw;
    try (right; rewrite (main_refused _ _ _ Hf Hi Hl Hr Hw); by eauto).
  - right. rewrite (main_aborted _ _ _ _ _ Hf Hi Hl Hr He Hw). eauto.
  - left. exists written. rewrite (main_saved _ _ _ _ Hf Hi Hl Hr He Hw).
    rewrite Hw. done.
  - right. rewrite (main_unencodable _ _ _ Hf Hi Hl Hr); [eauto | | done].
    rewrite Hw. discriminate.
  - right. rewrite (main_unencodable _ _ _ Hf Hi Hl Hr); [eauto | | done].
    rewrite Hw. discriminate.
Qed.

(** C4. For every input that opens, the first line printed reports the
    width and the height of the decoded input and then its resolution tag:
    [None] when the input carries none, and for a pair of floats, which is
    what a PNG with a resolution gives, or a pair of ints, the two numbers
    in parentheses, separated by a comma and a space; printing it never
    fails. *)
Theorem before_line_reports_input env content img :
  files env !! src = Some content -> identify content = Some img ->
  exists dpi_text rest,
    stdout (emitted (main env)) =
      ("Before: (" +:+ pretty (im_size img).1 +:+ ", "
         +:+ pretty (im_size img).2 +:+ "), DPI: " +:+ dpi_text) :: rest /\
    (im_info img !! "dpi" = None -> dpi_text = "None") /\
    (forall x y,
       im_info img !! "dpi" = Some (PyTuple [PyFloat x; PyFloat y]) ->
       dpi_text = "(" +:+ float_repr x +:+ ", " +:+ float_repr y +:+ ")") /\
    (forall x y,
       im_info img !! "dpi" = Some (PyTuple [PyInt x; PyInt y]) ->
       dpi_text = "(" +:+ pretty x +:+ ", " +:+ pretty y +:+ ")") /\
    (forall dpi, im_info img !! "dpi" = Some dpi -> dpi_text = py_str dpi).
Proof.
  intros Hf Hi.
  exists (match im_info img !! "dpi" with
          | Some dpi => py_str dpi
          | None => "None"
          end).
  rewrite <- before_line_format.
  assert (Hfirst : exists rest,
            stdout (emitted (main env)) = before_line img :: rest).
  { destruct (main_opened env content img Hf Hi)
      as [(written & _ & -> & _) | (e & _ & ->)]; eauto. }
  destruct Hfirst as [rest Hrest]. exists rest. split; [done|].
  repeat split.
  - intros ->. reflexivity.
  - intros x y ->. cbn [py_str List.map String.concat].
    rewrite !append_assoc. reflexivity.
  - intros x y ->. cbn [py_str List.map String.concat].
    rewrite !append_assoc. reflexivity.
  - intros dpi ->. reflexivity.
Qed.

(** C5. When the target is missing or cannot be decoded the run ends in an
    exception ([FileNotFoundError] for a missing file), the environment is
    exactly what it was, nothing was written, and the closing line was not
    printed; when the file is missing or not an image at all, nothing was
    printed either. *)
Theorem decode_failure_changes_nothing env :
  ~ decodable env ->
  (exists e, result (main env) = Raise e) /\
  (files env !! src = None -> result (main env) = Raise (FileNotFoundError src)) /\
  env_after (main env) = env /\
  writes (emitted (main env)) = [] /\
  (after_line ∉ stdout (emitted (main env))) /\
  (file_image env src = None -> emitted (main env) = []).
Proof.
  intros Hno. unfold file_image.
  destruct (files env !! src) as [content|] eqn:Hf;
    [| rewrite (main_missing _ Hf); cbn; repeat split; eauto; set_solver].
  destruct (identify content) as [img|] eqn:Hi;
    [| rewrite (main_unidentified _ _ Hf Hi); cbn; rewrite ?Hi;
       repeat split; eauto; try discriminate; set_solver].
  destruct (loads img) eqn:Hl; [destruct Hno; exists content, img; done|].
  rewrite (main_truncated _ _ _ Hf Hi Hl). cbn. rewrite Hi.
  repeat split; eauto; try discriminate.
  intros Hin%list_elem_of_singleton. symmetry in Hin.
  exact (before_is_not_after _ Hin).
Qed.

(** C6. A run that returns did three things, in this order: it printed one
    line, it wrote the file at the fixed path, it printed the closing line.
    The file system afterwards is the one before with that one file
    replaced: the same set of paths, every other file as it was. *)
Theorem success_effects_exact env :
  result (main env) = Ret tt ->
  exists line content,
    emitted (main env) = [EvPrint line; EvWrite src content; EvPrint after_line] /\
    stdout (emitted (main env)) = [line; after_line] /\
    writes (emitted (main env)) = [(src, content)] /\
    files (env_after (main env)) = <[src := content]> (files env) /\
    dom (files (env_after (main env))) = dom (files env) /\
    (forall path, path <> src ->
       files (env_after (main env)) !! path = files env !! path) /\
    write_fault (env_after (main env)) = write_fault env.
Proof.
  intros Hret.
  destruct (main_ret_inv env Hret)
    as (content & img & written & Hf & Hi & Hl & Hr & He & Hw).
  rewrite (main_saved _ _ _ _ Hf Hi Hl Hr He Hw). cbn [emitted env_after files].
  eexists _, _. repeat split.
  - apply dom_insert_lookup_L. eauto.
  - intros path Hne. apply lookup_insert_ne. done.
Qed.

(** C8. The second line a returning run prints is the literal
    ["After:  (590, 380), DPI: (72, 72)"], for every input and every
    behaviour of the imaging library: nothing is read back from the file. *)
Theorem after_line_is_constant env :
  result (main env) = Ret tt ->
  exists first,
    stdout (emitted (main env)) = [first; "After:  (590, 380), DPI: (72, 72)"].
Proof.
  intros Hret.
  destruct (main_ret_inv env Hret)
    as (content & img & written & Hf & Hi & Hl & Hr & He & Hw).
  rewrite (main_saved _ _ _ _ Hf Hi Hl Hr He Hw). cbn. eauto.
Qed.

End Effects.

(** ** The order within a run *)

Section Order.
Context `{FloatRepr} `{Pillow}.

(** C10. With the target opened: a run that returns printed the first line,
    then wrote the file, then printed the closing line; a run that does not
    return printed the first line and nothing else, the closing line least
    of all; and a disk that fails the write makes the run not return. *)
Theorem after_line_follows_save env content img :
  files env !! src = Some content -> identify content = Some img ->
  (result (main env) = Ret tt ->
   exists written,
     emitted (main env) =
       [EvPrint (before_line img); EvWrite src written; EvPrint after_line] /\
     files (env_after (main env)) !! src = Some written) /\
  (result (main env) <> Ret tt ->
   stdout (emitted (main env)) = [before_line img] /\
   (after_line ∉ stdout (emitted (main env)))) /\
  (write_fault env <> None -> result (main env) <> Ret tt).
Proof.
  intros Hf Hi.
  destruct (main_opened env content img Hf Hi)
    as [(written & Hret & Hev & Henv & Hw) | (e & Hret & Hout)].
  - split; [|split]; [| congruence | congruence].
    intros _. exists written. split; [exact Hev|].
    rewrite Henv. cbn. apply lookup_insert_eq.
  - split; [|split]; [congruence | | congruence].
    intros _. split; [done|]. rewrite Hout.
    intros Hin%list_elem_of_singleton. symmetry in Hin.
    exact (before_is_not_after _ Hin).
Qed.

End Order.

(** * Every run, returning or not *)

Section EveryRun.
Context `{FloatRepr} `{Pillow}.

(** X1. No run, whether it returns or fails and however it fails, creates
    or deletes a file or changes a file other than the one at the fixed
    path; every write it makes goes to that path. *)
Theorem only_the_target_is_touched env :
  dom (files (env_after (main env))) = dom (files env) /\
  (forall path, path <> src ->
     files (env_after (main env)) !! path = files env !! path) /\
  (forall path content,
     (path, content) ∈ writes (emitted (main env)) -> path = src).
Proof.
  run_cases env; cbn [env_after emitted files writes omap list_omap];
    (split; [|split]);
    try done;
    try (apply dom_insert_lookup_L; eauto);
    try (intros path Hne; apply lookup_insert_ne; done);
    intros path0 written0 Hin;
    try (apply list_elem_of_singleton in Hin; congruence);
    by apply elem_of_nil in Hin.
Qed.

(** X2. What a run does is always an initial part of the same sequence:
    print the first line, write the target, print the closing line.  It has
    the whole sequence exactly when it returns. *)
Theorem effects_are_a_prefix env :
  exists line content,
    emitted (main env) `prefix_of`
      [EvPrint line; EvWrite src content; EvPrint after_line] /\
    (result (main env) = Ret tt <->
     emitted (main env) = [EvPrint line; EvWrite src content; EvPrint after_line]).
Proof.
  run_cases env; cbn [emitted result].
  - exists (before_line img), []. split; [by eexists [_; _]|]. split; discriminate.
  - exists (before_line img), residue. split; [by eexists [_]|]. split; discriminate.
  - exists (before_line img), []. split; [by eexists [_]|]. split; discriminate.
  - eexists _, _. split; [reflexivity|]. done.
  - exists (before_line img), []. split; [by eexists [_]|]. split; discriminate.
  - exists (before_line img), []. split; [by eexists [_; _]|]. split; discriminate.
  - exists (before_line img), []. split; [by eexists [_; _]|]. split; discriminate.
  - exists "", []. split; [by eexists|]. split; discriminate.
  - exists "", []. split; [by eexists|]. split; discriminate.
Qed.

(** X3. The closing line is on standard output exactly when the run
    returned: it is never printed by a run that fails, at any point. *)
Theorem after_line_iff_returned env :
  after_line ∈ stdout (emitted (main env)) <-> result (main env) = Ret tt.
Proof.
  assert (Hone : forall img, after_line ∈ [before_line img] -> False).
  { intros img Hin%list_elem_of_singleton. symmetry in Hin.
    exact (before_is_not_after _ Hin). }
  run_cases env; cbn [emitted result stdout omap list_omap];
    split; try discriminate; try done;
    try (intros Hin; exfalso; solve [eapply Hone; exact Hin | by apply elem_of_nil in Hin]).
  intros _. set_solver.
Qed.

(** X4. A run that fails either leaves the whole environment as it found
    it and writes nothing, or it failed inside the save after the target
    had been opened for writing; then the target, and only the target, has
    lost its content: it holds what the failed write left, which is nothing
    at all when the encoder refused the image.  A missing or broken input
    and a refused open are always of the first kind. *)
Theorem failed_run_is_clean_or_tears_the_target env :
  result (main env) <> Ret tt ->
  ((env_after (main env) = env /\ writes (emitted (main env)) = []) \/
   (exists residue,
      decodable env /\ write_fault env <> Some Refused /\
      env_after (main env) =
        {| files := <[src := residue]> (files env);
           write_fault := write_fault env |} /\
      writes (emitted (main env)) = [(src, residue)] /\
      (write_fault env = None -> residue = []))) /\
  (~ decodable env \/ write_fault env = Some Refused ->
   env_after (main env) = env /\ writes (emitted (main env)) = []).
Proof.
  intros Hfail. revert Hfail.
  run_cases env; cbn [env_after emitted result writes omap list_omap];
    intros Hfail; try done;
    try (split; [by left | done]);
    rewrite ?Hw;
    (split;
     [ right; eexists; split; [by exists content, img|]; done
     | intros [Hno | Hrefused];
       [destruct Hno; by exists content, img | done] ]).
Qed.

End EveryRun.

Section Rerun.
Context `{FloatRepr} `{Pillow} `{!PillowLaws}.

(** X5. The run returns exactly when the target is there, opens, its pixel
    data decodes, the encoder takes the resized image, and the disk takes
    the write. *)
Theorem returns_iff_all_steps_succeed env :
  result (main env) = Ret tt <->
  exists content img written,
    files env !! src = Some content /\ identify content = Some img /\
    loads img = true /\
    im_encode src (resized img) save_params = Some written /\
    write_fault env = None.
Proof.
  split.
  - intros Hret.
    destruct (main_ret_inv env Hret)
      as (content & img & written & Hf & Hi & Hl & _ & He & Hw).
    exists content, img, written. done.
  - intros (content & img & written & Hf & Hi & Hl & He & Hw).
    rewrite (main_saved _ _ _ _ Hf Hi Hl (resized_loads _ Hl) He Hw).
    reflexivity.
Qed.


End Rerun.

(** * The first line can be read back *)

Lemma occurs_app c s t : occurs c (s +:+ t) = occurs c s || occurs c t.
Proof.
  induction s as [|a s IH]; [reflexivity|].
  change (occurs c (String a (s +:+ t)) = occurs c (String a s) || occurs c t).
  cbn [occurs]. rewrite IH, orb_assoc. reflexivity.
Qed.

(** Cutting two strings at a character neither has before the cut. *)
Lemma cut_at_char c s1 s2 t1 t2 :
  occurs c s1 = false -> occurs c s2 = false ->
  s1 +:+ String c t1 = s2 +:+ String c t2 -> s1 = s2 /\ t1 = t2.
Proof.
  revert s2. induction s1 as [|a s1 IH]; intros [|b s2] H1 H2 Heq.
  - injection Heq as ->. done.
  - change (String c t1 = String b (s2 +:+ String c t2)) in Heq.
    injection Heq as <- _. cbn in H2. rewrite Ascii.eqb_refl in H2. done.
  - change (String a (s1 +:+ String c t1) = String c t2) in Heq.
    injection Heq as -> _. cbn in H1. rewrite Ascii.eqb_refl in H1. done.
  - change (String a (s1 +:+ String c t1) = String b (s2 +:+ String c t2)) in Heq.
    injection Heq as -> Heq. cbn in H1, H2.
    apply orb_false_iff in H1 as [_ H1]. apply orb_false_iff in H2 as [_ H2].
    destruct (IH s2 H1 H2 Heq) as [-> ->]. done.
Qed.

Lemma pretty_N_char_numeric x : numeric (pretty_N_char x) = true.
Proof. unfold pretty_N_char. repeat case_match; reflexivity. Qed.

Lemma occurs_not_numeric c d : numeric c = false -> numeric d = true -> Ascii.eqb d c = false.
Proof.
  intros Hc Hd. destruct (Ascii.eqb d c) eqn:Heq; [|done].
  apply Ascii.eqb_eq in Heq as ->. congruence.
Qed.

Lemma pretty_N_go_occurs c x s :
  numeric c = false -> occurs c s = false -> occurs c (pretty_N_go x s) = false.
Proof.
  intros Hc. revert s. induction (N.lt_wf_0 x) as [x _ IH]. intros s Hs.
  destruct (decide (x = 0)%N) as [->|Hx]; [by rewrite pretty_N_go_0|].
  rewrite pretty_N_go_step by lia. apply IH.
  - apply N.div_lt; lia.
  - cbn [occurs]. rewrite Hs, orb_false_r.
    apply occurs_not_numeric; [done|apply pretty_N_char_numeric].
Qed.

Lemma pretty_Z_occurs c (z : Z) :
  numeric c = false -> occurs c (pretty z) = false.
Proof.
  intros Hc.
  assert (Hdigit : forall d, numeric d = true -> occurs c (String d "") = false).
  { intros d Hd. cbn [occurs]. rewrite orb_false_r.
    apply occurs_not_numeric; done. }
  assert (HN : forall n : N, occurs c (pretty n) = false).
  { intros n. unfold pretty, pretty_N. case_decide.
    - apply Hdigit. reflexivity.
    - apply pretty_N_go_occurs; done. }
  destruct z as [|p|p].
  - apply Hdigit. reflexivity.
  - apply (HN (Npos p)).
  - change (occurs c ("-" +:+ pretty (Npos p)) = false).
    rewrite occurs_app, HN, orb_false_r. apply Hdigit. reflexivity.
Qed.

Section ReadBack.
Context `{FloatRepr} `{Pillow}.

(** X7. The first line tells the size without ambiguity: two images that
    get the same first line have the same width and the same height,
    whatever their resolution tags print as. *)
Theorem before_line_determines_size (img1 img2 : Image) :
  before_line img1 = before_line img2 -> im_size img1 = im_size img2.
Proof.
  rewrite !before_line_format. intros Heq.
  apply (inj (String.app "Before: (")) in Heq.
  change (?a +:+ ", " +:+ ?b) with (a +:+ String ","%char (" " +:+ b)) in Heq.
  apply cut_at_char in Heq as [Hw Heq];
    [| apply pretty_Z_occurs; reflexivity ..].
  apply (inj (String.app " ")) in Heq.
  change (?a +:+ "), DPI: " +:+ ?b) with (a +:+ String ")"%char (", DPI: " +:+ b)) in Heq.
  apply cut_at_char in Heq as [Hh _];
    [| apply pretty_Z_occurs; reflexivity ..].
  apply (inj pretty) in Hw, Hh.
  destruct (im_size img1), (im_size img2). cbn in *. congruence.
Qed.

End ReadBack.

(** * The script on the small codec *)

Section ToyRuns.
Import Toy.

Example run_wide :
  emitted (run wide) =
    [EvPrint "Before: (1200, 760), DPI: (96.012, 96.012)";
     EvWrite src (file rgb (filter_code LANCZOS) 590 380 (Some (72%nat, 72%nat)));
     EvPrint "After:  (590, 380), DPI: (72, 72)"]
  /\ result (run wide) = Ret tt.
Proof. split; vm_compute; reflexivity. Qed.

Example run_again :
  stdout (emitted (run (env_after (run wide)))) =
    ["Before: (590, 380), DPI: (72.009, 72.009)";
     "After:  (590, 380), DPI: (72, 72)"].
Proof. vm_compute; reflexivity. Qed.

Example run_indexed :
  writes (emitted (run indexed)) =
    [(src, file palette (filter_code NEAREST) 590 380 (Some (72%nat, 72%nat)))]
  /\ result (run indexed) = Ret tt.
Proof. split; vm_compute; reflexivity. Qed.

Example run_four_inks :
  emitted (run four_inks) =
    [EvPrint "Before: (1200, 760), DPI: None"; EvWrite src []]
  /\ result (run four_inks) = Raise (OSError "cannot write mode")
  /\ files (env_after (run four_inks)) !! src = Some [].
Proof. repeat split; vm_compute; reflexivity. Qed.

Example run_read_only :
  emitted (run read_only) = [EvPrint "Before: (1200, 760), DPI: None"]
  /\ result (run read_only) = Raise (PermissionError src)
  /\ env_after (run read_only) = read_only.
Proof. repeat split; vm_compute; reflexivity. Qed.

Example run_disk_full :
  emitted (run disk_full) =
    [EvPrint "Before: (1200, 760), DPI: None"; EvWrite src [x54]]
  /\ result (run disk_full) = Raise (OSError "write failed")
  /\ files (env_after (run disk_full)) !! src = Some [x54].
Proof. repeat split; vm_compute; reflexivity. Qed.

Example run_cut_short :
  emitted (run cut_short) = [EvPrint "Before: (2, 1), DPI: None"]
  /\ result (run cut_short) = Raise (OSError "image file is truncated")
  /\ env_after (run cut_short) = cut_short.
Proof. repeat split; vm_compute; reflexivity. Qed.

Example run_not_an_image :
  emitted (run not_an_image) = []
  /\ result (run not_an_image) = Raise (UnidentifiedImageError src).
Proof. split; vm_compute; reflexivity. Qed.

Example run_no_file :
  emitted (run no_file) = []
  /\ result (run no_file) = Raise (FileNotFoundError src).
Proof. split; vm_compute; reflexivity. Qed.

(** With an encoder that writes nothing a reader accepts, the closing line
    still says 590 x 380 at (72, 72). *)
Example after_line_unchecked :
  result (@main repr careless wide) = Ret tt /\
  stdout (emitted (@main repr careless wide)) =
    ["Before: (1200, 760), DPI: (96.012, 96.012)";
     "After:  (590, 380), DPI: (72, 72)"] /\
  @file_size careless (env_after (@main repr careless wide)) src = None.
Proof. repeat split; vm_compute; reflexivity. Qed.

(** The file a run leaves does not read back at (72, 72): 2835 pixels per
    metre are 72.009 dots per inch, more than 72. *)
Lemma exactly_72_dpi_counterexample :
  result (run wide) = Ret tt /\
  @file_dpi pillow (env_after (run wide)) src =
    Some (PyTuple [PyFloat 72.009%float; PyFloat 72.009%float]) /\
  PrimFloat.ltb (float_of_int 72) 72.009%float = true /\
  ~ (@file_size pillow (env_after (run wide)) src = Some (590, 380) /\
     @file_dpi pillow (env_after (run wide)) src =
       Some (PyTuple [PyInt 72; PyInt 72])).
Proof.
  assert (Hdpi : @file_dpi pillow (env_after (run wide)) src =
            Some (PyTuple [PyFloat 72.009%float; PyFloat 72.009%float]))
    by (vm_compute; reflexivity).
  split; [vm_compute; reflexivity|]. split; [exact Hdpi|].
  split; [vm_compute; reflexivity|].
  intros [_ Hclaim]. rewrite Hdpi in Hclaim. discriminate.
Qed.

Lemma run_leaves_target_size_and_resolution_witness :
  result (run wide) = Ret tt /\
  @file_size pillow (env_after (run wide)) src = Some (590, 380) /\
  @file_dpi pillow (env_after (run wide)) src =
    Some (PyTuple [PyFloat (dpi_of_pixels_per_metre 2835);
                   PyFloat (dpi_of_pixels_per_metre 2835)]) /\
  dpi_of_pixels_per_metre 2835 = 72.009%float.
Proof.
  assert (Hret : result (run wide) = Ret tt) by (vm_compute; reflexivity).
  split; [exact Hret|].
  exact (@run_leaves_target_size_and_resolution repr pillow toy_laws wide Hret).
Defined.

Lemma rerun_keeps_target_size_witness :
  @file_size pillow (env_after (run wide)) src = Some (590, 380) /\
  result (run (env_after (run wide))) = Ret tt /\
  @file_size pillow (env_after (run (env_after (run wide)))) src = Some (590, 380).
Proof.
  apply (@rerun_keeps_target_size repr pillow toy_laws wide (env_after (run wide))).
  - vm_compute; reflexivity.
  - reflexivity.
  - vm_compute; reflexivity.
Defined.



Lemma before_line_reports_input_witness :
  (exists rest,
     stdout (emitted (run wide)) =
       "Before: (1200, 760), DPI: (96.012, 96.012)" :: rest) /\
  (exists rest,
     stdout (emitted (run square)) = "Before: (512, 512), DPI: None" :: rest).
Proof.
  split.
  - destruct (@before_line_reports_input repr pillow wide
                (png 1200 760 (Some (96%nat, 96%nat)))
                (decoded rgb 1200 760 (Some (96%nat, 96%nat))))
      as (dpi_text & rest & Hout & _ & Hfloats & _); [vm_compute; reflexivity ..|].
    exists rest. unfold run. rewrite Hout.
    rewrite (Hfloats (dpi_of_pixels_per_metre 3780) (dpi_of_pixels_per_metre 3780));
      vm_compute; reflexivity.
  - destruct (@before_line_reports_input repr pillow square
                (png 512 512 None) (decoded rgb 512 512 None))
      as (dpi_text & rest & Hout & Hnone & _); [vm_compute; reflexivity ..|].
    exists rest. unfold run. rewrite Hout. rewrite Hnone; vm_compute; reflexivity.
Defined.

Lemma decode_failure_changes_nothing_witness :
  (exists e, result (run no_file) = Raise e) /\
  (files no_file !! src = None -> result (run no_file) = Raise (FileNotFoundError src)) /\
  env_after (run no_file) = no_file /\
  writes (emitted (run no_file)) = [] /\
  (@after_line ∉ stdout (emitted (run no_file))) /\
  (@file_image pillow no_file src = None -> emitted (run no_file) = []).
Proof.
  apply (@decode_failure_changes_nothing repr pillow no_file).
  intros (content & img & Hfile & _). vm_compute in Hfile. discriminate.
Defined.

Lemma success_effects_exact_witness :
  exists line content,
    emitted (run wide) = [EvPrint line; EvWrite src content; EvPrint after_line] /\
    stdout (emitted (run wide)) = [line; after_line] /\
    writes (emitted (run wide)) = [(src, content)] /\
    files (env_after (run wide)) = <[src := content]> (files wide) /\
    dom (files (env_after (run wide))) = dom (files wide) /\
    (forall path, path <> src ->
       files (env_after (run wide)) !! path = files wide !! path) /\
    write_fault (env_after (run wide)) = write_fault wide.
Proof.
  apply (@success_effects_exact repr pillow wide). vm_compute; reflexivity.
Defined.

(** A decodable input on a disk that takes the write is not always
    re-encoded: the encoder refuses a CMYK image and the target is left
    empty.  And an input that has the size already is written again without
    being resampled: its pixel data comes back as decoded. *)
Lemma always_resampled_and_written_counterexample :
  (@decodable pillow four_inks /\ write_fault four_inks = None /\
   result (run four_inks) = Raise (OSError "cannot write mode") /\
   files (env_after (run four_inks)) !! src = Some []) /\
  (@decodable pillow done_already /\
   result (run done_already) = Ret tt /\
   @resized pillow (decoded rgb 590 380 (Some (72%nat, 72%nat))) =
     decoded rgb 590 380 (Some (72%nat, 72%nat)) /\
   @resized pillow (decoded rgb 590 380 (Some (72%nat, 72%nat))) <>
     scale (decoded rgb 590 380 (Some (72%nat, 72%nat))) (590, 380) LANCZOS
       (0, 0, 590, 380) /\
   files (env_after (run done_already)) !! src = files done_already !! src).
Proof.
  split.
  - split.
    { exists (file cmyk x2a 1200 760 None), (decoded cmyk 1200 760 None).
      repeat split; vm_compute; reflexivity. }
    repeat split; vm_compute; reflexivity.
  - split.
    { exists (png 590 380 (Some (72%nat, 72%nat))),
        (decoded rgb 590 380 (Some (72%nat, 72%nat))).
      repeat split; vm_compute; reflexivity. }
    split; [vm_compute; reflexivity|]. split; [vm_compute; reflexivity|].
    split; [vm_compute; discriminate|]. vm_compute; reflexivity.
Qed.

Lemma save_follows_resize_unconditionally_witness :
  result (run done_already) = Ret tt /\
  writes (emitted (run done_already)) =
    [(src, png 590 380 (Some (72%nat, 72%nat)))] /\
  files (env_after (run done_already)) !! src =
    Some (png 590 380 (Some (72%nat, 72%nat))) /\
  @resized pillow (decoded rgb 590 380 (Some (72%nat, 72%nat))) =
    decoded rgb 590 380 (Some (72%nat, 72%nat)).
Proof.
  destruct (@save_follows_resize_unconditionally repr pillow toy_laws done_already
              (png 590 380 (Some (72%nat, 72%nat)))
              (decoded rgb 590 380 (Some (72%nat, 72%nat)))
              (png 590 380 (Some (72%nat, 72%nat))))
    as (Hret & Hwrites & Hfile & Hsame & _); [vm_compute; reflexivity ..|].
  split; [exact Hret|]. split; [exact Hwrites|]. split; [exact Hfile|].
  apply Hsame. vm_compute; reflexivity.
Defined.

Lemma after_line_is_constant_witness :
  exists first,
    stdout (emitted (run square)) = [first; "After:  (590, 380), DPI: (72, 72)"].
Proof.
  apply (@after_line_is_constant repr pillow square). vm_compute; reflexivity.
Defined.

Lemma after_line_follows_save_witness :
  result (run read_only) <> Ret tt /\
  stdout (emitted (run read_only)) = ["Before: (1200, 760), DPI: None"] /\
  (@after_line ∉ stdout (emitted (run read_only))).
Proof.
  destruct (@after_line_follows_save repr pillow read_only
              (png 1200 760 None) (decoded rgb 1200 760 None))
    as (_ & Hfail & Hfault); [vm_compute; reflexivity ..|].
  assert (Hraise : result (run read_only) <> Ret tt)
    by (apply Hfault; vm_compute; discriminate).
  split; [exact Hraise|]. exact (Hfail Hraise).
Defined.

Lemma failed_run_is_clean_or_tears_the_target_witness :
  (exists residue,
     env_after (run four_inks) =
       {| files := <[src := residue]> (files four_inks);
          write_fault := write_fault four_inks |} /\
     writes (emitted (run four_inks)) = [(src, residue)] /\
     residue = []) /\
  (env_after (run read_only) = read_only /\ writes (emitted (run read_only)) = []).
Proof.
  split.
  - destruct (@failed_run_is_clean_or_tears_the_target repr pillow four_inks)
      as [[[Hclean _] | (residue & _ & _ & Henv & Hwrites & Hempty)] _].
    + vm_compute. discriminate.
    + exfalso. apply (f_equal (fun e => files e !! src)) in Hclean.
      vm_compute in Hclean. discriminate.
    + exists residue. split; [exact Henv|]. split; [exact Hwrites|].
      apply Hempty. reflexivity.
  - apply (@failed_run_is_clean_or_tears_the_target repr pillow read_only).
    + vm_compute. discriminate.
    + right. reflexivity.
Defined.

Lemma returns_iff_all_steps_succeed_witness :
  result (run wide) = Ret tt /\ result (run four_inks) <> Ret tt.
Proof.
  split.
  - apply (@returns_iff_all_steps_succeed repr pillow toy_laws wide).
    exists (png 1200 760 (Some (96%nat, 96%nat))),
      (decoded rgb 1200 760 (Some (96%nat, 96%nat))),
      (file rgb (filter_code LANCZOS) 590 380 (Some (72%nat, 72%nat))).
    repeat split; vm_compute; reflexivity.
  - intros Hret.
    apply (@returns_iff_all_steps_succeed repr pillow toy_laws four_inks) in Hret
      as (content & img & written & Hf & Hi & _ & He & _).
    vm_compute in Hf. injection Hf as <-.
    vm_compute in Hi. injection Hi as <-.
    vm_compute in He. discriminate.
Defined.


Lemma before_line_determines_size_witness :
  @im_size pillow (decoded rgb 512 512 None) =
  @im_size pillow (decoded palette 512 512 None).
Proof.
  apply (@before_line_determines_size repr pillow). vm_compute; reflexivity.
Defined.

End ToyRuns.
